(** * flint.sclient: running a command inside a singularity container

    A shallow embedding of [src/flint/sclient.py].  The module has a single
    function, [run_singularity_command]; it talks to the file system
    ([pathlib]), to the logger ([flint.logging.logger]), to the container
    runtime ([spython.main.Client.execute]) and to a caller-supplied
    callback.  Those collaborators are outside the module: the file system
    and the runtime are taken as a record of oracles ([World]), the logger
    and the callback as events written to a trace.

    Strings are Rocq [string]s; a character stands for a code point below
    256.  Paths are wrapped strings. *)

From Stdlib Require Import Ascii String NArith ZArith.
From stdpp Require Import base strings list gmap.

Local Open Scope string_scope.
Local Open Scope list_scope.

(** ** [str] methods used by the module *)

Module PyStr.

(** [str.isspace] on one character, for code points below 256: TAB..CR,
    FS..US, SPACE, NEL and NBSP. *)
Definition isspace (c : ascii) : bool :=
  let n := N_of_ascii c in
  ((9 <=? n) && (n <=? 13) || (28 <=? n) && (n <=? 32)
   || (n =? 133) || (n =? 160))%N.

(** The scanner behind [str.split()] called without a separator: [cur] is
    the token being read.  Runs of white space separate tokens and never
    produce an empty one. *)
Fixpoint split_go (cur : string) (s : string) : list string :=
  match s with
  | EmptyString => match cur with EmptyString => [] | _ => [cur] end
  | String c s' =>
      if isspace c then
        match cur with
        | EmptyString => split_go EmptyString s'
        | _ => cur :: split_go EmptyString s'
        end
      else split_go (cur +:+ String c EmptyString) s'
  end.

(** [s.split()] *)
Definition split (s : string) : list string := split_go EmptyString s.

(** [s.rstrip()]: every trailing white-space character is removed. *)
Fixpoint rstrip (s : string) : string :=
  match s with
  | EmptyString => EmptyString
  | String c s' =>
      match rstrip s' with
      | EmptyString => if isspace c then EmptyString else String c EmptyString
      | r => String c r
      end
  end.

(** The characters of [s] that are not white space, in order. *)
Fixpoint drop_spaces (s : string) : string :=
  match s with
  | EmptyString => EmptyString
  | String c s' =>
      if isspace c then drop_spaces s' else String c (drop_spaces s')
  end.

(** No character of [s] is white space. *)
Fixpoint no_space (s : string) : bool :=
  match s with
  | EmptyString => true
  | String c s' => negb (isspace c) && no_space s'
  end.


(** ["".join(l)] *)
Definition join (l : list string) : string := foldr String.append EmptyString l.

(** Whether [s] is the empty string. *)
Definition is_empty (s : string) : bool :=
  match s with EmptyString => true | _ => false end.

(** What an argument produced by [split] looks like: not empty, and free
    of white space. *)
Definition token (t : string) : Prop :=
  is_empty t = false /\ no_space t = true.

(** Formatting of an optional value inside an f-string: [None] prints as
    the word, a string as itself. *)
Definition fmt {A} (show : A -> string) (o : option A) : string :=
  match o with None => "None" | Some a => show a end.

End PyStr.

(** ** Values that cross the module's boundary *)

(** [pathlib.Path]; [as_posix] is also what [str(p)] and an f-string give. *)
Record Path := MkPath { as_posix : string }.

(** [subprocess.CalledProcessError] with its four attributes. *)
Record CalledProcessError := MkCalledProcessError {
  returncode : Z;
  cmd : list string;
  stdout : option string;
  stderr : option string
}.

(** The exceptions that can leave [run_singularity_command].  [PyError]
    stands for any other exception class, raised by a callback. *)
Inductive Exn :=
| FileNotFoundError (msg : string)
| UnboundLocalError (name : string)
| CalledProcessErr (e : CalledProcessError)
| PyError (cls : string).

(** The generator returned by [sclient.execute(..., stream=True)]: it yields
    lines and then either stops (exit status 0) or raises
    [CalledProcessError]. *)
Inductive Output :=
| Stop
| Failed (e : CalledProcessError)
| Yield (line : string) (rest : Output).

(** The lines a generator yields when it is consumed to its end. *)
Fixpoint lines_of (o : Output) : list string :=
  match o with
  | Yield l rest => l :: lines_of rest
  | _ => []
  end.


(** The [bind_dirs] argument: [Optional[Union[Path, Collection[Path]]]]. *)
Inductive BindDirs :=
| BindNone
| BindPath (p : Path)
| BindColl (ps : list Path).

(** Python truth value of [bind_dirs]: [None] and an empty collection are
    false, a [Path] object is always true. *)
Definition truthy (b : BindDirs) : bool :=
  match b with
  | BindNone => false
  | BindPath _ => true
  | BindColl ps => negb (bool_decide (ps = []))
  end.

(** A callable handed in as [stream_callback_func], by what one call does:
    [None] when it returns (the value is discarded), [Some e] when it
    raises [e]. *)
Definition Callback := string -> option Exn.

(** What the module cannot see from the inside. *)
Record World := MkWorld {
  path_exists : Path -> bool;            (* Path.exists() *)
  path_absolute : Path -> Path;          (* Path.absolute() *)
  path_resolve : Path -> Path;           (* Path.resolve() *)
  gethostname : string;                  (* socket.gethostname() *)
  sclient_execute :                      (* what the runtime answers *)
    string -> list string -> option (list string) -> Output;
  repr_error : CalledProcessError -> string   (* repr(e) *)
}.

(** ** Effects: a trace of events and an outcome *)

Inductive Level := DEBUG | INFO | ERROR.

Inductive Event :=
| EvLog (lvl : Level) (msg : string)
| EvExecute (image : string) (command : list string)
    (bind : option (list string))
| EvCallback (line : string).

Inductive Outcome (A : Type) :=
| Return (a : A)
| Raise (e : Exn).
Arguments Return {A} a.
Arguments Raise {A} e.

(** A computation: the events it performed, in order, and how it ended. *)
Definition M (A : Type) : Type := list Event * Outcome A.

Definition ret {A} (a : A) : M A := ([], Return a).

Definition bind {A B} (m : M A) (f : A -> M B) : M B :=
  match m with
  | (t, Return a) => let '(t', r) := f a in (t ++ t', r)
  | (t, Raise e) => (t, Raise e)
  end.

Definition raise {A} (e : Exn) : M A := ([], Raise e).

Definition emit (ev : Event) : M unit := ([ev], Return tt).

Notation "x <- m ;; k" := (bind m (fun x => k))
  (at level 100, m at next level, right associativity, only parsing).
Notation "m ;;; k" := (bind m (fun _ => k))
  (at level 100, right associativity, only parsing).

(** [try: body except CalledProcessError as e: handler e]; any other
    exception passes through. *)
Definition try_except_CalledProcessError {A}
    (body : M A) (handler : CalledProcessError -> M A) : M A :=
  match body with
  | (t, Raise (CalledProcessErr e)) =>
      let '(t', r) := handler e in (t ++ t', r)
  | _ => body
  end.

Definition logger_debug (msg : string) : M unit := emit (EvLog DEBUG msg).
Definition logger_info (msg : string) : M unit := emit (EvLog INFO msg).
Definition logger_error (msg : string) : M unit := emit (EvLog ERROR msg).

(** A local variable of the function body: assigned or not yet. *)
Inductive Local (A : Type) :=
| Unbound
| Bound (a : A).
Arguments Unbound {A}.
Arguments Bound {A} a.

(** Reading a local variable; an unassigned one raises. *)
Definition load_local {A} (name : string) (v : Local A) : M A :=
  match v with
  | Bound a => ret a
  | Unbound => raise (UnboundLocalError name)
  end.

(** Calling the callback with one line. *)
Definition call (f : Callback) (line : string) : M unit :=
  emit (EvCallback line);;;
  match f line with
  | None => ret tt
  | Some e => raise e
  end.

(** [for line in output: body line] *)
Fixpoint for_line_in (output : Output) (body : string -> M unit) : M unit :=
  match output with
  | Stop => ret tt
  | Failed e => raise (CalledProcessErr e)
  | Yield line rest => body line;;; for_line_in rest body
  end.

(** ** The function *)

Section Sclient.

Variable w : World.

(** [str(p.absolute().resolve())] *)
Definition canonical (p : Path) : string :=
  as_posix (path_resolve w (path_absolute w p)).

(** [sclient.execute(image=.., command=.., bind=.., return_result=True,
    quiet=False, stream=True, stream_type="both")] *)
Definition execute (image : string) (command : list string)
    (bind : option (list string)) : M Output :=
  emit (EvExecute image command bind);;;
  ret (sclient_execute w image command bind).

Definition run_singularity_command (image : Path) (command : string)
    (bind_dirs : BindDirs) (stream_callback_func : option Callback)
    : M unit :=
  if negb (path_exists w image) then
    raise (FileNotFoundError
      ("The singularity container " +:+ as_posix image
       +:+ " was not found. "))
  else
    logger_info ("Running " +:+ command +:+ " in " +:+ as_posix image);;;
    logger_info
      ("Attempting to run singularity command on " +:+ gethostname w);;;
    let bind_str : option string := None in
    bind <- (if truthy bind_dirs then
               let bind_dirs :=
                 match bind_dirs with
                 | BindPath p => [p]
                 | BindColl ps => ps
                 | BindNone => []
                 end in
               let bind :=
                 if (0 <? length bind_dirs)%nat
                 then Some (elements
                   (list_to_set (canonical <$> bind_dirs) : gset string))
                 else None in
               logger_debug
                 ("Constructed singularity bindings: "
                  +:+ PyStr.fmt id bind_str);;;
               ret (Bound bind)
             else ret Unbound);;
    try_except_CalledProcessError
      (let image' := as_posix (path_resolve w image) in
       let argv := PyStr.split command in
       bind <- load_local "bind" bind;;
       output <- execute image' argv bind;;
       for_line_in output (fun line =>
         logger_info (PyStr.rstrip line);;;
         match stream_callback_func with
         | Some f => call f line
         | None => ret tt
         end))
      (fun e =>
         logger_error ("Failed to run command: " +:+ command);;;
         logger_error ("Stdout: " +:+ PyStr.fmt id (stdout e));;;
         logger_error ("Stderr: " +:+ PyStr.fmt id (stderr e));;;
         logger_error ("e=" +:+ repr_error w e);;;
         raise (CalledProcessErr e)).

End Sclient.

(** ** Reading a trace *)

(** The calls made to the runtime, in order. *)
Definition execute_calls (t : list Event)
    : list (string * list string * option (list string)) :=
  omap (fun ev =>
    match ev with
    | EvExecute i c b => Some (i, c, b)
    | _ => None
    end) t.

(** The lines handed to the callback, in order. *)
Definition callback_lines (t : list Event) : list string :=
  omap (fun ev => match ev with EvCallback l => Some l | _ => None end) t.

(** The messages logged at one level, in order. *)
Definition logged (lvl : Level) (t : list Event) : list string :=
  omap (fun ev =>
    match ev, lvl with
    | EvLog DEBUG m, DEBUG | EvLog INFO m, INFO | EvLog ERROR m, ERROR =>
        Some m
    | _, _ => None
    end) t.


(** ** Vocabulary for the statements *)

Section Vocabulary.

Variable w : World.

(** The directories [bind_dirs] stands for once a bare [Path] is wrapped
    into a list. *)
Definition dirs (b : BindDirs) : list Path :=
  match b with
  | BindNone => []
  | BindPath p => [p]
  | BindColl ps => ps
  end.

(** The bind list built from a true [bind_dirs]. *)
Definition bind_list (b : BindDirs) : list string :=
  elements (list_to_set (canonical w <$> dirs b) : gset string).

(** The generator the runtime hands back for this call. *)
Definition runtime_output (image : Path) (command : string)
    (b : BindDirs) : Output :=
  sclient_execute w (as_posix (path_resolve w image))
    (PyStr.split command) (Some (bind_list b)).

(** The two messages logged once the image is known to exist. *)
Definition announced (image : Path) (command : string) : list Event :=
  [EvLog INFO ("Running " +:+ command +:+ " in " +:+ as_posix image);
   EvLog INFO
     ("Attempting to run singularity command on " +:+ gethostname w)].

(** Everything that happens up to and including the call to the runtime,
    when [bind_dirs] is true. *)
Definition started (image : Path) (command : string) (b : BindDirs)
    : list Event :=
  announced image command ++
  [EvLog DEBUG "Constructed singularity bindings: None";
   EvExecute (as_posix (path_resolve w image)) (PyStr.split command)
     (Some (bind_list b))].

(** What one output line causes. *)
Definition per_line (cb : option Callback) (line : string) : list Event :=
  EvLog INFO (PyStr.rstrip line) ::
  match cb with Some _ => [EvCallback line] | None => [] end.

(** The four messages of the [except] branch. *)
Definition failure_log (command : string) (e : CalledProcessError)
    : list Event :=
  [EvLog ERROR ("Failed to run command: " +:+ command);
   EvLog ERROR ("Stdout: " +:+ PyStr.fmt id (stdout e));
   EvLog ERROR ("Stderr: " +:+ PyStr.fmt id (stderr e));
   EvLog ERROR ("e=" +:+ repr_error w e)].


(** The [except] branch as it stands in [run_singularity_command]. *)
Definition handler (command : string) (e : CalledProcessError) : M unit :=
  logger_error ("Failed to run command: " +:+ command);;;
  logger_error ("Stdout: " +:+ PyStr.fmt id (stdout e));;;
  logger_error ("Stderr: " +:+ PyStr.fmt id (stderr e));;;
  logger_error ("e=" +:+ repr_error w e);;;
  raise (CalledProcessErr e).

End Vocabulary.

(** The body of the [for] loop as it stands in [run_singularity_command]. *)
Definition body (cb : option Callback) (line : string) : M unit :=
  logger_info (PyStr.rstrip line);;;
  match cb with
  | Some f => call f line
  | None => ret tt
  end.

(** The callback, when there is one, returns from each of the calls with the
    lines [ls]. *)
Definition returns_on (cb : option Callback) (ls : list string) : bool :=
  match cb with
  | None => true
  | Some f =>
      forallb (fun l => match f l with None => true | Some _ => false end) ls
  end.




(** ** A small world to run the function in *)

Module Demo.

(** The line feed. *)
Definition nl : string := String "010"%char EmptyString.

Definition test_sif : Path := MkPath "test.sif".
Definition missing_sif : Path := MkPath "missing.sif".
Definition data : Path := MkPath "/data".
Definition scratch : Path := MkPath "/scratch".

(** Relative paths are taken from the working directory [/work]. *)
Definition absolute (p : Path) : Path :=
  match as_posix p with
  | String "/" _ => p
  | s => MkPath ("/work/" +:+ s)
  end.

(** [/scratch] is a symbolic link to [/data]. *)
Definition resolve (p : Path) : Path :=
  let q := absolute p in
  if String.eqb (as_posix q) "/scratch" then data else q.

(** A runtime that knows [echo] and [false]. *)
Definition runtime (image : string) (argv : list string)
    (bind : option (list string)) : Output :=
  match argv with
  | "echo" :: args => Yield (String.concat " " args +:+ nl) Stop
  | "false" :: _ =>
      Failed {| returncode := 1; cmd := argv;
                stdout := None; stderr := Some "" |}
  | _ => Stop
  end.

Definition world : World := {|
  path_exists p := String.eqb (as_posix p) "test.sif";
  path_absolute := absolute;
  path_resolve := resolve;
  gethostname := "node0";
  sclient_execute := runtime;
  repr_error e := "CalledProcessError(1, ...)"
|}.

(** A callback that takes every line. *)
Definition recorder : Callback := fun _ => None.

(** A callback that raises on every line. *)
Definition picky : Callback := fun _ => Some (PyError "ValueError").

End Demo.

(** * flint.summary: the summary of a processed field

    A shallow embedding of [src/flint/summary.py].  The values a summary
    holds are made by [astropy] and by other modules of [flint]; they are
    kept as opaque objects, and the functions that make them are taken as a
    record of oracles ([Astro]), each of which returns or raises. *)

Module Summary.

(** The Python values that a field of a summary, or a keyword argument, can
    hold.  [VObj] is an object of an outside library ([SkyCoord], [Time],
    [MSSummary], [MS], a float, ...), known by a handle only. *)
#[local] Set Warnings "-register-all".
Inductive Val :=
| VNone
| VStr (s : string)
| VInt (n : Z)
| VPath (p : Path)
| VTuple (vs : list Val)
| VObj (handle : N).

(** [class FieldSummary(NamedTuple)] *)
Record FieldSummary := MkFieldSummary {
  sbid : Val;
  cal_sbid : Val;
  field_name : Val;
  ms_summaries : Val;
  centre : Val;
  integration_time : Val;
  no_components : Val;
  holography_path : Val;
  round : Val;
  location : Val;
  ms_times : Val;
  hour_angles : Val;
  elevations : Val;
  median_rms : Val
}.

(** The names of the fields, in the order of the class body. *)
Definition fields : list string :=
  ["sbid"; "cal_sbid"; "field_name"; "ms_summaries"; "centre";
   "integration_time"; "no_components"; "holography_path"; "round";
   "location"; "ms_times"; "hour_angles"; "elevations"; "median_rms"].

(** [self._asdict()] *)
Definition _asdict (fs : FieldSummary) : gmap string Val :=
  list_to_map
    [("sbid", sbid fs); ("cal_sbid", cal_sbid fs);
     ("field_name", field_name fs); ("ms_summaries", ms_summaries fs);
     ("centre", centre fs); ("integration_time", integration_time fs);
     ("no_components", no_components fs);
     ("holography_path", holography_path fs); ("round", round fs);
     ("location", location fs); ("ms_times", ms_times fs);
     ("hour_angles", hour_angles fs); ("elevations", elevations fs);
     ("median_rms", median_rms fs)].

(** A keyword argument of the constructor that has a default: the value
    given, or [None]. *)
Definition keyword (prop : gmap string Val) (name : string) : Val :=
  default VNone (prop !! name).

(** [FieldSummary] called with the entries of [prop] as keyword arguments:
    a keyword that is not a field, or a missing [sbid], [cal_sbid] or
    [field_name], is a [TypeError]. *)
Definition new (prop : gmap string Val) : Outcome FieldSummary :=
  if bool_decide (dom prop ⊆ list_to_set fields) then
    match prop !! "sbid", prop !! "cal_sbid", prop !! "field_name" with
    | Some a, Some b, Some c =>
        Return {|
          sbid := a;
          cal_sbid := b;
          field_name := c;
          ms_summaries := keyword prop "ms_summaries";
          centre := keyword prop "centre";
          integration_time := keyword prop "integration_time";
          no_components := keyword prop "no_components";
          holography_path := keyword prop "holography_path";
          round := keyword prop "round";
          location := keyword prop "location";
          ms_times := keyword prop "ms_times";
          hour_angles := keyword prop "hour_angles";
          elevations := keyword prop "elevations";
          median_rms := keyword prop "median_rms"
        |}
    | _, _, _ => Raise (PyError "TypeError")
    end
  else Raise (PyError "TypeError").

(** A call that logs nothing: it returns or raises. *)
Definition quiet {A} (o : Outcome A) : M A := ([], o).

(** [FieldSummary.with_options], [kwargs] being its keyword arguments:
    [dict.update] lets them win over the fields. *)
Definition with_options (self : FieldSummary) (kwargs : gmap string Val)
    : M FieldSummary :=
  let prop := _asdict self in
  let prop := kwargs ∪ prop in
  quiet (new prop).

(** [flint.source_finding.aegean.AegeanOutputs], by the two attributes the
    module reads. *)
Record AegeanOutputs := MkAegeanOutputs {
  rms : Path;
  comp : Path
}.

(** What [processed_ms_format] finds in the name of a measurement set, by
    the two attributes the module reads; the field name can be [None]. *)
Record NameComponents := MkNameComponents {
  name_sbid : Val;
  name_field : option string
}.

(** What [flint.ms], [flint.naming], [flint.utils] and [astropy] do for this
    module.  Each call returns a value or raises; [str], [repr] and the
    attribute [path] of a measurement set always return. *)
Record Astro := MkAstro {
  (* MS.cast(ms=ms) *)
  ms_cast : Val -> Outcome Val;
  (* ms.path *)
  ms_path : Val -> Path;
  (* processed_ms_format(in_name=p) *)
  processed_ms_format : Path -> Outcome NameComponents;
  (* get_sbid_from_path(path=p) *)
  get_sbid_from_path : Path -> Outcome Val;
  (* str(v) *)
  str : Val -> string;
  (* get_times_from_ms(ms=ms) *)
  get_times_from_ms : Val -> Outcome Val;
  (* ms_times.ptp().to(u.second).value *)
  ptp_seconds : Val -> Outcome Val;
  (* get_telescope_location_from_ms(ms=ms) *)
  get_telescope_location_from_ms : Val -> Outcome Val;
  (* Time([ms_times.min(), ms_times.max()]) *)
  time_min_max : Val -> Outcome Val;
  (* describe_ms(ms) *)
  describe_ms : Val -> Outcome Val;
  (* estimate_image_centre(image_path=p).icrs *)
  estimate_image_centre : Path -> Outcome Val;
  (* centre.transform_to(AltAz(obstime=ms_times, location=telescope)) *)
  transform_to_altaz : Val -> Val -> Val -> Outcome Val;
  (* centre_altaz.az.to(u.hourangle) *)
  az_to_hourangle : Val -> Outcome Val;
  (* centre_altaz.alt.to(u.deg) *)
  alt_to_deg : Val -> Outcome Val;
  (* len(Table.read(p)) *)
  table_length : Path -> Outcome Val;
  (* repr(field_summary) *)
  repr_summary : FieldSummary -> string
}.

Section Functions.

Variable a : Astro.

(** [tuple(map(describe_ms, mss))], without the [tuple]. *)
Fixpoint map_describe_ms (mss : list Val) : M (list Val) :=
  match mss with
  | [] => ret []
  | ms :: rest =>
      s <- quiet (describe_ms a ms);;
      ss <- map_describe_ms rest;;
      ret (s :: ss)
  end.

(** [describe_ms] returns for each measurement set of [mss], with the
    result at the same place in [ss]. *)
Definition described (mss ss : list Val) : Prop :=
  Forall2 (fun ms s => describe_ms a ms = Return s) mss ss.

Definition add_ms_summaries (field_summary : FieldSummary)
    (mss : list Val) : M FieldSummary :=
  ms_summaries <- map_describe_ms mss;;
  with_options field_summary {[ "ms_summaries" := VTuple ms_summaries ]}.

Definition add_rms_information (field_summary : FieldSummary)
    (aegean_outputs : AegeanOutputs) : M FieldSummary :=
  let rms_image_path := rms aegean_outputs in
  centre <- quiet (estimate_image_centre a rms_image_path);;
  let telescope := location field_summary in
  let ms_times := ms_times field_summary in
  centre_altaz <- quiet (transform_to_altaz a centre ms_times telescope);;
  hour_angles <- quiet (az_to_hourangle a centre_altaz);;
  elevations <- quiet (alt_to_deg a centre_altaz);;
  no_components <- quiet (table_length a (comp aegean_outputs));;
  with_options field_summary
    (<[ "centre" := centre ]>
       (<[ "hour_angles" := hour_angles ]>
          (<[ "elevations" := elevations ]>
             {[ "no_components" := no_components ]}))).

Definition update_field_summary (field_summary : FieldSummary)
    (aegean_outputs : option AegeanOutputs) (mss : option (list Val))
    (kwargs : gmap string Val) : M FieldSummary :=
  field_summary <-
    match aegean_outputs with
    | Some aegean_outputs => add_rms_information field_summary aegean_outputs
    | None => ret field_summary
    end;;
  field_summary <-
    match mss with
    | Some (ms :: rest) => add_ms_summaries field_summary (ms :: rest)
    | _ => ret field_summary
    end;;
  field_summary <- with_options field_summary kwargs;;
  logger_info ("Updated field_summary=" +:+ repr_summary a field_summary);;;
  ret field_summary.

(** [assert cond] *)
Definition assert_ (cond : bool) : M unit :=
  if cond then ret tt else raise (PyError "AssertionError").

Definition create_field_summary (ms : Val) (cal_sbid_path : option Path)
    (holography_path : option Path)
    (aegean_outputs : option AegeanOutputs) (mss : option (list Val))
    : M FieldSummary :=
  logger_info "Creating field summary object";;;
  ms <- quiet (ms_cast a ms);;
  ms_components <- quiet (processed_ms_format a (ms_path a ms));;
  let sbid := VStr (str a (name_sbid ms_components)) in
  let field := name_field ms_components in
  assert_ (bool_decide (field <> None));;;
  cal_sbid <-
    match cal_sbid_path with
    | Some cal_sbid_path =>
        n <- quiet (get_sbid_from_path a cal_sbid_path);;
        ret (VStr (str a n))
    | None => ret VNone
    end;;
  ms_times <- quiet (get_times_from_ms a ms);;
  integration <- quiet (ptp_seconds a ms_times);;
  location <- quiet (get_telescope_location_from_ms a ms);;
  ms_range <- quiet (time_min_max a ms_times);;
  let field_summary := {|
    sbid := sbid;
    field_name := from_option VStr VNone field;
    cal_sbid := cal_sbid;
    location := location;
    integration_time := integration;
    holography_path := from_option VPath VNone holography_path;
    ms_times := ms_range;
    ms_summaries := VNone;
    centre := VNone;
    no_components := VNone;
    round := VNone;
    hour_angles := VNone;
    elevations := VNone;
    median_rms := VNone
  |} in
  field_summary <-
    match aegean_outputs with
    | Some aegean_outputs => add_rms_information field_summary aegean_outputs
    | None => ret field_summary
    end;;
  field_summary <-
    match mss with
    | Some (ms :: rest) => add_ms_summaries field_summary (ms :: rest)
    | _ => ret field_summary
    end;;
  ret field_summary.

End Functions.

End Summary.

(** ** A small set of oracles to run the summary functions with *)

Module SummaryDemo.
Import Summary.

Definition astro : Astro := {|
  ms_cast v := Return v;
  ms_path v := MkPath "/obs/SB1234.RACS_0000-12.beam00.ms";
  processed_ms_format p :=
    Return {| name_sbid := VInt 1234; name_field := Some "RACS_0000-12" |};
  get_sbid_from_path p := Return (VInt 1200);
  str v :=
    match v with
    | VInt 1234 => "1234"
    | VInt 1200 => "1200"
    | _ => "object"
    end;
  get_times_from_ms v := Return (VObj 10);
  ptp_seconds v := Return (VObj 11);
  get_telescope_location_from_ms v := Return (VObj 12);
  time_min_max v := Return (VObj 13);
  describe_ms v :=
    match v with
    | VObj n => Return (VObj (100 + n))
    | _ => Raise (PyError "AttributeError")
    end;
  estimate_image_centre p := Return (VObj 20);
  transform_to_altaz c t l := Return (VObj 21);
  az_to_hourangle v := Return (VObj 22);
  alt_to_deg v := Return (VObj 23);
  table_length p := Return (VInt 42);
  repr_summary fs := "FieldSummary(...)"
|}.

(** The same oracles, but the name of the measurement set has no field. *)
Definition nameless : Astro := {|
  ms_cast := ms_cast astro;
  ms_path := ms_path astro;
  processed_ms_format p :=
    Return {| name_sbid := VInt 1234; name_field := None |};
  get_sbid_from_path := get_sbid_from_path astro;
  str := str astro;
  get_times_from_ms := get_times_from_ms astro;
  ptp_seconds := ptp_seconds astro;
  get_telescope_location_from_ms := get_telescope_location_from_ms astro;
  time_min_max := time_min_max astro;
  describe_ms := describe_ms astro;
  estimate_image_centre := estimate_image_centre astro;
  transform_to_altaz := transform_to_altaz astro;
  az_to_hourangle := az_to_hourangle astro;
  alt_to_deg := alt_to_deg astro;
  table_length := table_length astro;
  repr_summary := repr_summary astro
|}.

Definition summary0 : FieldSummary := {|
  sbid := VStr "1234";
  cal_sbid := VStr "1200";
  field_name := VStr "RACS_0000-12";
  ms_summaries := VNone;
  centre := VNone;
  integration_time := VObj 11;
  no_components := VNone;
  holography_path := VNone;
  round := VNone;
  location := VObj 12;
  ms_times := VObj 13;
  hour_angles := VNone;
  elevations := VNone;
  median_rms := VNone
|}.

Definition aegean0 : AegeanOutputs :=
  {| rms := MkPath "/obs/image_rms.fits";
     comp := MkPath "/obs/image_comp.fits" |}.

End SummaryDemo.

(** ** Facts about [split] and [rstrip] *)

Module PyStrFacts.
Import PyStr.

#[local] Arguments String.append : simpl nomatch.

Lemma append_nil_r (s : string) : s +:+ EmptyString = s.
Proof. induction s as [|c s IH]; simpl; [done | by rewrite IH]. Qed.

Lemma append_assoc (a b c : string) : (a +:+ b) +:+ c = a +:+ (b +:+ c).
Proof. induction a as [|x a IH]; simpl; [done | by rewrite IH]. Qed.

Lemma no_space_snoc (cur : string) (c : ascii) :
  no_space cur = true -> isspace c = false ->
  no_space (cur +:+ String c EmptyString) = true.
Proof.
  intros Hcur Hc. induction cur as [|x cur IH]; simpl in *.
  - by rewrite Hc.
  - apply andb_true_iff in Hcur as [Hx Hcur].
    rewrite Hx. simpl. by apply IH.
Qed.

Lemma is_empty_snoc (cur : string) (c : ascii) :
  is_empty (cur +:+ String c EmptyString) = false.
Proof. by destruct cur. Qed.

Lemma split_go_tokens (s cur : string) :
  no_space cur = true -> Forall token (split_go cur s).
Proof.
  revert cur. induction s as [|c s IH]; intros cur Hcur; simpl.
  - destruct cur; [constructor |].
    constructor; [by split | constructor].
  - destruct (isspace c) eqn:Hc.
    + destruct cur; [by apply IH |].
      constructor; [by split | by apply IH].
    + apply IH. by apply no_space_snoc.
Qed.

Lemma split_go_join (s cur : string) :
  join (split_go cur s) = cur +:+ drop_spaces s.
Proof.
  revert cur. induction s as [|c s IH]; intros cur; simpl.
  - by destruct cur.
  - destruct (isspace c) eqn:Hc.
    + destruct cur; [by rewrite IH |].
      simpl. by rewrite IH.
    + rewrite IH. by rewrite append_assoc.
Qed.

Lemma split_tokens (s : string) : Forall token (split s).
Proof. by apply split_go_tokens. Qed.

Lemma split_join (s : string) : join (split s) = drop_spaces s.
Proof. unfold split. by rewrite split_go_join. Qed.

(** A command made of white space only has no token at all. *)
Lemma split_blank (s : string) : drop_spaces s = EmptyString -> split s = [].
Proof.
  intros Hs. pose proof (split_tokens s) as Htok.
  pose proof (split_join s) as Hjoin. rewrite Hs in Hjoin.
  destruct (split s) as [|t l]; [done |].
  apply Forall_cons in Htok as [[Hne _] _].
  destruct t; [done | discriminate Hjoin].
Qed.

Lemma rstrip_blank (ws : string) :
  drop_spaces ws = EmptyString -> rstrip ws = EmptyString.
Proof.
  induction ws as [|c ws IH]; simpl; [done |].
  destruct (isspace c); [| discriminate].
  intros H. by rewrite IH.
Qed.

(** White space appended to a line does not show in its stripped form. *)
Lemma rstrip_app_blank (s ws : string) :
  drop_spaces ws = EmptyString -> rstrip (s +:+ ws) = rstrip s.
Proof.
  intros Hws. induction s as [|c s IH]; simpl.
  - by apply rstrip_blank.
  - by rewrite IH.
Qed.


(** What [rstrip] keeps does not end in white space. *)
Lemma rstrip_idem (s : string) : rstrip (rstrip s) = rstrip s.
Proof.
  induction s as [|c s IH]; simpl; [done |].
  destruct (rstrip s) as [|x r] eqn:Hr.
  - destruct (isspace c) eqn:Hc; simpl; [done | by rewrite Hc].
  - change (rstrip (String c (String x r))) with
      (match rstrip (String x r) with
       | EmptyString =>
           if isspace c then EmptyString else String c EmptyString
       | r' => String c r'
       end).
    by rewrite IH.
Qed.


End PyStrFacts.

(** ** The shape of a run *)

Module RunFacts.
Import PyStr.

Section Shape.

Variable w : World.
Variable image : Path.
Variable command : string.

Lemma run_missing b cb :
  path_exists w image = false ->
  run_singularity_command w image command b cb =
    ([], Raise (FileNotFoundError
       ("The singularity container " +:+ as_posix image
        +:+ " was not found. "))).
Proof. intros He. unfold run_singularity_command. by rewrite He. Qed.

Lemma run_unbound b cb :
  path_exists w image = true -> truthy b = false ->
  run_singularity_command w image command b cb =
    (announced w image command, Raise (UnboundLocalError "bind")).
Proof.
  intros He Hb. unfold run_singularity_command. by rewrite He, Hb.
Qed.

Lemma run_started b cb :
  path_exists w image = true -> truthy b = true ->
  run_singularity_command w image command b cb =
    let '(t, r) :=
      try_except_CalledProcessError
        (for_line_in (runtime_output w image command b) (body cb))
        (handler w command) in
    (started w image command b ++ t, r).
Proof.
  intros He Hb. unfold run_singularity_command. rewrite He, Hb.
  assert (Hlen : (0 <? length (dirs b))%nat = true).
  { destruct b as [|p|[|p ps]]; done. }
  replace (match b with
           | BindNone => [] | BindPath p => [p] | BindColl ps => ps
           end) with (dirs b) by by destruct b.
  rewrite Hlen. unfold runtime_output, bind_list, body, handler. cbn.
  match goal with
  | |- context [for_line_in ?o ?f] =>
      destruct (for_line_in o f) as [t [[]|e]]
  end; cbn; [done |].
  by destruct e.
Qed.




(** Whatever the callback does, the loop and the [except] branch never
    call the runtime and never log at debug level. *)
Lemma loop_quiet out cb :
  execute_calls (for_line_in out (body cb)).1 = []
  /\ logged DEBUG (for_line_in out (body cb)).1 = [].
Proof.
  induction out as [|e|l rest [IHx IHd]]; [done | done |].
  simpl. destruct (for_line_in rest (body cb)) as [t r].
  unfold body, call. destruct cb as [f|]; [destruct (f l) |]; done.
Qed.

Lemma handled_quiet out cb :
  execute_calls
    (try_except_CalledProcessError
       (for_line_in out (body cb)) (handler w command)).1 = []
  /\ logged DEBUG
    (try_except_CalledProcessError
       (for_line_in out (body cb)) (handler w command)).1 = [].
Proof.
  destruct (loop_quiet out cb) as [Hx Hd].
  destruct (for_line_in out (body cb)) as [t [[]|e]]; [done |].
  destruct e as [| |e|]; try done. simpl in *.
  unfold execute_calls, logged in *. by rewrite !omap_app, ?Hx, ?Hd.
Qed.

(** The calls made to the runtime: one when the image exists and
    [bind_dirs] is true, none otherwise. *)
Lemma run_execute_calls b cb :
  execute_calls (run_singularity_command w image command b cb).1 =
    if path_exists w image && truthy b
    then [(as_posix (path_resolve w image), split command,
           Some (bind_list w b))]
    else [].
Proof.
  destruct (path_exists w image) eqn:He.
  - destruct (truthy b) eqn:Hb.
    + rewrite (run_started _ _ He Hb).
      destruct (handled_quiet (runtime_output w image command b) cb)
        as [Hx _].
      destruct (try_except_CalledProcessError _ _) as [t r].
      simpl in *. unfold execute_calls in *.
      by rewrite ?omap_app, Hx.
    + by rewrite (run_unbound _ _ He Hb).
  - by rewrite (run_missing _ _ He).
Qed.

Lemma run_debug_log b cb :
  path_exists w image = true -> truthy b = true ->
  logged DEBUG (run_singularity_command w image command b cb).1 =
    ["Constructed singularity bindings: None"].
Proof.
  intros He Hb. rewrite (run_started _ _ He Hb).
  destruct (handled_quiet (runtime_output w image command b) cb)
    as [_ Hd].
  destruct (try_except_CalledProcessError _ _) as [t r].
  simpl in *. unfold logged in *. by rewrite ?omap_app, Hd.
Qed.

End Shape.

End RunFacts.

(** ** Runs in the small world *)

Module DemoRuns.
Import Demo.

Example split_keeps_quotes :
  PyStr.split "  echo   'a b'  c " = ["echo"; "'a"; "b'"; "c"].
Proof. reflexivity. Qed.

Example rstrip_line : PyStr.rstrip ("hello  " +:+ nl) = "hello".
Proof. reflexivity. Qed.

Example echo_with_bind :
  run_singularity_command world test_sif "echo hello"
    (BindColl [data; scratch; data]) (Some recorder) =
  ([EvLog INFO "Running echo hello in test.sif";
    EvLog INFO "Attempting to run singularity command on node0";
    EvLog DEBUG "Constructed singularity bindings: None";
    EvExecute "/work/test.sif" ["echo"; "hello"] (Some ["/data"]);
    EvLog INFO "hello";
    EvCallback ("hello" +:+ nl)],
   Return tt).
Proof. vm_compute. reflexivity. Qed.

Example echo_without_bind :
  run_singularity_command world test_sif "echo hello"
    BindNone (Some recorder) =
  ([EvLog INFO "Running echo hello in test.sif";
    EvLog INFO "Attempting to run singularity command on node0"],
   Raise (UnboundLocalError "bind")).
Proof. vm_compute. reflexivity. Qed.




End DemoRuns.

(** ** The properties of [run_singularity_command] *)

Import PyStr PyStrFacts RunFacts.

(** C1.  With an existing image and a [bind_dirs] that is [None] or empty,
    the call does not reach the runtime: the local variable [bind] was never
    assigned, reading it raises [UnboundLocalError], and neither the runtime
    nor the callback is called. *)
Theorem no_binds_unbound_local w image command b cb :
  path_exists w image = true ->
  truthy b = false ->
  run_singularity_command w image command b cb =
    (announced w image command, Raise (UnboundLocalError "bind"))
  /\ execute_calls (run_singularity_command w image command b cb).1 = []
  /\ callback_lines (run_singularity_command w image command b cb).1 = [].
Proof.
  intros He Hb. rewrite (run_unbound w image command b cb He Hb).
  by repeat split.
Qed.

Lemma no_binds_unbound_local_witness :
  path_exists Demo.world Demo.test_sif = true
  /\ truthy BindNone = false
  /\ run_singularity_command Demo.world Demo.test_sif "echo hello"
       BindNone (Some Demo.recorder) =
     (announced Demo.world Demo.test_sif "echo hello",
      Raise (UnboundLocalError "bind"))
  /\ execute_calls
       (run_singularity_command Demo.world Demo.test_sif "echo hello"
          BindNone (Some Demo.recorder)).1 = []
  /\ callback_lines
       (run_singularity_command Demo.world Demo.test_sif "echo hello"
          BindNone (Some Demo.recorder)).1 = [].
Proof.
  split; [reflexivity |]. split; [reflexivity |].
  apply (no_binds_unbound_local Demo.world Demo.test_sif "echo hello"
           BindNone (Some Demo.recorder)); reflexivity.
Defined.

(** C2.  When the image does not exist the call raises [FileNotFoundError]
    and nothing else has happened: the trace is empty, so nothing was
    logged, the runtime was not called and no second attempt was made. *)
Theorem missing_image_fails_first w image command b cb :
  path_exists w image = false ->
  run_singularity_command w image command b cb =
    ([], Raise (FileNotFoundError
       ("The singularity container " +:+ as_posix image
        +:+ " was not found. "))).
Proof. apply run_missing. Qed.

Lemma missing_image_fails_first_witness :
  path_exists Demo.world Demo.missing_sif = false
  /\ run_singularity_command Demo.world Demo.missing_sif "echo hello"
       (BindColl [Demo.data]) (Some Demo.recorder) =
     ([], Raise (FileNotFoundError
        "The singularity container missing.sif was not found. ")).
Proof.
  split; [reflexivity |].
  apply (missing_image_fails_first Demo.world Demo.missing_sif "echo hello"
           (BindColl [Demo.data]) (Some Demo.recorder)).
  reflexivity.
Defined.


(** C9.  A bare [Path] given as [bind_dirs] behaves as the list holding
    just that path, and the bind list is its one canonical form. *)
Theorem bare_path_is_singleton w image command p cb :
  run_singularity_command w image command (BindPath p) cb =
    run_singularity_command w image command (BindColl [p]) cb
  /\ bind_list w (BindPath p) = [canonical w p]
  /\ bind_list w (BindColl [p]) = [canonical w p].
Proof.
  split; [reflexivity |].
  assert (H : bind_list w (BindPath p) = [canonical w p]).
  { unfold bind_list. simpl.
    rewrite (right_id_L (∅ : gset string) (∪)).
    apply elements_singleton. }
  by split.
Qed.

(** The bind list holds the canonical form of every directory, once. *)
Lemma bind_list_NoDup w b : NoDup (bind_list w b).
Proof. apply NoDup_elements. Qed.

Lemma elem_of_bind_list w b s :
  s ∈ bind_list w b <-> exists p, p ∈ dirs b /\ s = canonical w p.
Proof.
  unfold bind_list. rewrite elem_of_elements, elem_of_list_to_set.
  rewrite list_elem_of_fmap.
  split; intros (p & H1 & H2); exists p; by split.
Qed.

Lemma bind_list_nonempty w b : truthy b = true -> bind_list w b <> [].
Proof.
  intros Hb Hnil.
  assert (Hp : exists p, p ∈ dirs b).
  { destruct b as [|p|[|p ps]]; try done; eexists; simpl; left. }
  destruct Hp as [p Hp].
  assert (Hin : canonical w p ∈ bind_list w b).
  { apply elem_of_bind_list. eauto. }
  rewrite Hnil in Hin. by apply not_elem_of_nil in Hin.
Qed.





(** C8.  With an existing image and a true [bind_dirs], the one message
    logged at debug level is built from [bind_str], which is still [None]:
    it reads "Constructed singularity bindings: None", while the bind list
    handed to the runtime is not empty. *)
Theorem debug_message_shows_none w image command b cb :
  path_exists w image = true ->
  truthy b = true ->
  logged DEBUG (run_singularity_command w image command b cb).1 =
    ["Constructed singularity bindings: None"]
  /\ execute_calls (run_singularity_command w image command b cb).1 =
       [(as_posix (path_resolve w image), split command,
         Some (bind_list w b))]
  /\ bind_list w b <> [].
Proof.
  intros He Hb. split; [by apply run_debug_log |].
  split; [| by apply bind_list_nonempty].
  rewrite run_execute_calls. by rewrite He, Hb.
Qed.

Lemma debug_message_shows_none_witness :
  path_exists Demo.world Demo.test_sif = true
  /\ truthy (BindColl [Demo.data]) = true
  /\ logged DEBUG
       (run_singularity_command Demo.world Demo.test_sif "echo hello"
          (BindColl [Demo.data]) None).1 =
     ["Constructed singularity bindings: None"]
  /\ execute_calls
       (run_singularity_command Demo.world Demo.test_sif "echo hello"
          (BindColl [Demo.data]) None).1 =
     [("/work/test.sif", ["echo"; "hello"], Some ["/data"])]
  /\ ["/data"] <> [].
Proof.
  split; [reflexivity |]. split; [reflexivity |].
  apply (debug_message_shows_none Demo.world Demo.test_sif "echo hello"
           (BindColl [Demo.data]) None); reflexivity.
Defined.

(** C10.  A command that is empty or all white space is not rejected: its
    argument vector is empty, and with a true [bind_dirs] that empty vector
    is what the runtime is called with.  With [bind_dirs] absent or empty
    the call stops earlier, at the unassigned [bind], and the runtime is not
    called. *)
Theorem blank_command_not_validated w image command b cb :
  path_exists w image = true ->
  drop_spaces command = EmptyString ->
  split command = []
  /\ if truthy b
     then execute_calls (run_singularity_command w image command b cb).1 =
            [(as_posix (path_resolve w image), [], Some (bind_list w b))]
     else run_singularity_command w image command b cb =
            (announced w image command, Raise (UnboundLocalError "bind")).
Proof.
  intros He Hblank. pose proof (split_blank command Hblank) as Hsplit.
  split; [done |].
  destruct (truthy b) eqn:Hb.
  - rewrite run_execute_calls. by rewrite He, Hb, Hsplit.
  - by apply run_unbound.
Qed.

Lemma blank_command_not_validated_witness :
  path_exists Demo.world Demo.test_sif = true
  /\ drop_spaces "   " = EmptyString
  /\ split "   " = []
  /\ run_singularity_command Demo.world Demo.test_sif "   " BindNone None =
       (announced Demo.world Demo.test_sif "   ",
        Raise (UnboundLocalError "bind")).
Proof.
  split; [reflexivity |]. split; [reflexivity |].
  apply (blank_command_not_validated Demo.world Demo.test_sif "   "
           BindNone None); reflexivity.
Defined.












(** ** More about a run: success, a callback that raises, the error log *)

Lemma logged_app lvl (t1 t2 : list Event) :
  logged lvl (t1 ++ t2) = logged lvl t1 ++ logged lvl t2.
Proof. apply omap_app. Qed.

(** The loop never logs at error level, whatever the callback does. *)
Lemma loop_no_error out cb :
  logged ERROR (for_line_in out (body cb)).1 = [].
Proof.
  induction out as [|e|l rest IH]; [done | done |].
  simpl. destruct (for_line_in rest (body cb)) as [t r].
  unfold body, call. destruct cb as [f|]; [destruct (f l) |]; done.
Qed.


(** The loop when the callback raises on the line [l], after having returned
    from the lines [l1]: [l] is the last line handled. *)
Lemma loop_aborted out (f : Callback) l1 l l2 exn :
  lines_of out = l1 ++ l :: l2 ->
  returns_on (Some f) l1 = true ->
  f l = Some exn ->
  for_line_in out (body (Some f)) =
    (flat_map (per_line (Some f)) l1
       ++ [EvLog INFO (rstrip l); EvCallback l],
     Raise exn).
Proof.
  revert out. induction l1 as [|x l1 IH]; intros out Hout Hcb Hl.
  - destruct out as [|e|y rest]; simplify_eq/=.
    destruct (for_line_in rest (body (Some f))) as [t r].
    unfold body, call. by rewrite Hl.
  - destruct out as [|e|y rest]; simplify_eq/=.
    apply andb_true_iff in Hcb as [Hx Hcb].
    rewrite (IH rest ltac:(done) Hcb Hl).
    unfold body, call. by destruct (f x).
Qed.




(** X3.  When the callback raises on a line, that line has been logged and handed
    over, no later line is logged or handed over, and the exception leaves
    the call.  A [CalledProcessError] raised by the callback goes through the
    [except] branch like one raised by the runtime: the four error messages
    are logged first. *)
Theorem callback_exception_ends_run w image command b (f : Callback)
    l1 l l2 exn :
  path_exists w image = true ->
  truthy b = true ->
  lines_of (runtime_output w image command b) = l1 ++ l :: l2 ->
  returns_on (Some f) l1 = true ->
  f l = Some exn ->
  run_singularity_command w image command b (Some f) =
    (started w image command b
       ++ flat_map (per_line (Some f)) l1
       ++ [EvLog INFO (rstrip l); EvCallback l]
       ++ match exn with
          | CalledProcessErr e => failure_log w command e
          | _ => []
          end,
     Raise exn).
Proof.
  intros He Hb Hout Hcb Hl.
  rewrite (run_started w image command b (Some f) He Hb).
  rewrite (loop_aborted _ f l1 l l2 exn Hout Hcb Hl).
  destruct exn; simpl; rewrite <- ?app_assoc; simpl; by rewrite ?app_nil_r.
Qed.

Lemma callback_exception_ends_run_witness :
  path_exists Demo.world Demo.test_sif = true
  /\ truthy (BindPath Demo.data) = true
  /\ run_singularity_command Demo.world Demo.test_sif "echo hello"
       (BindPath Demo.data) (Some Demo.picky) =
     (started Demo.world Demo.test_sif "echo hello" (BindPath Demo.data)
        ++ []
        ++ [EvLog INFO (rstrip ("hello" +:+ Demo.nl));
            EvCallback ("hello" +:+ Demo.nl)]
        ++ [],
      Raise (PyError "ValueError")).
Proof.
  split; [reflexivity |]. split; [reflexivity |].
  apply (callback_exception_ends_run Demo.world Demo.test_sif "echo hello"
           (BindPath Demo.data) Demo.picky
           [] ("hello" +:+ Demo.nl) [] (PyError "ValueError"));
    reflexivity.
Defined.

(** X4.  Messages at error level appear in one case only: the call ends by
    raising a [CalledProcessError], and then they are the four messages of
    the [except] branch for that error. *)
Theorem error_log_matches_outcome w image command b cb :
  logged ERROR (run_singularity_command w image command b cb).1 =
    match (run_singularity_command w image command b cb).2 with
    | Raise (CalledProcessErr e) =>
        ["Failed to run command: " +:+ command;
         "Stdout: " +:+ fmt id (stdout e);
         "Stderr: " +:+ fmt id (stderr e);
         "e=" +:+ repr_error w e]
    | _ => []
    end.
Proof.
  destruct (path_exists w image) eqn:He;
    [| by rewrite (run_missing w image command b cb He)].
  destruct (truthy b) eqn:Hb;
    [| by rewrite (run_unbound w image command b cb He Hb)].
  rewrite (run_started w image command b cb He Hb).
  pose proof (loop_no_error (runtime_output w image command b) cb) as Hq.
  assert (Hs : logged ERROR (started w image command b) = []) by done.
  destruct (for_line_in _ (body cb)) as [t [[]|e]];
    [| destruct e]; cbn -[logged started] in *;
    rewrite ?logged_app, Hs, Hq; done.
Qed.

(** ** More about the bind list and the argument vector *)

(** X5.  De-duplication only ever removes entries: the bind list is no longer
    than the list of directories, it is as long exactly when no two
    directories share a canonical form, and in that case it holds the
    canonical forms of all of them. *)
Theorem bind_list_length w b :
  length (bind_list w b) <= length (dirs b)
  /\ (length (bind_list w b) = length (dirs b) <->
      NoDup (canonical w <$> dirs b))
  /\ (NoDup (canonical w <$> dirs b) ->
      bind_list w b ≡ₚ canonical w <$> dirs b).
Proof.
  assert (Hsub : bind_list w b ⊆+ canonical w <$> dirs b).
  { apply NoDup_submseteq; [apply bind_list_NoDup |].
    intros s Hs. apply elem_of_bind_list in Hs as (p & Hp & ->).
    by apply list_elem_of_fmap_2. }
  assert (Hlen : length (canonical w <$> dirs b) = length (dirs b))
    by apply length_fmap.
  split; [rewrite <- Hlen; by apply submseteq_length |].
  split; [split |].
  - intros Heq.
    assert (Hp : bind_list w b ≡ₚ canonical w <$> dirs b).
    { apply submseteq_length_Permutation; [done | lia]. }
    rewrite <- Hp. apply bind_list_NoDup.
  - intros Hnd. rewrite <- Hlen. apply Permutation_length.
    by apply elements_list_to_set.
  - intros Hnd. by apply elements_list_to_set.
Qed.

Lemma split_go_word (t s cur : string) :
  no_space t = true -> split_go cur (t +:+ s) = split_go (cur +:+ t) s.
Proof.
  revert cur. induction t as [|c t IH]; intros cur Ht.
  - by rewrite append_nil_r.
  - simpl in Ht. apply andb_true_iff in Ht as [Hc Ht].
    apply negb_true_iff in Hc.
    change (String c t +:+ s) with (String c (t +:+ s)).
    simpl. rewrite Hc, (IH _ Ht), append_assoc. done.
Qed.

Lemma split_go_space (cur s : string) :
  is_empty cur = false ->
  split_go cur (String " " s) = cur :: split_go EmptyString s.
Proof. by destruct cur. Qed.

(** Arguments joined by single spaces split back into themselves. *)
Lemma split_concat (args : list string) :
  Forall token args -> split (String.concat " " args) = args.
Proof.
  unfold split. induction 1 as [|t args [Hne Ht] Hargs IH]; [done |].
  destruct args as [|t' args].
  - simpl. rewrite <- (append_nil_r t) at 1.
    rewrite (split_go_word t EmptyString EmptyString Ht). simpl.
    by destruct t.
  - change (String.concat " " (t :: t' :: args))
      with (t +:+ String " " (String.concat " " (t' :: args))).
    rewrite (split_go_word t _ EmptyString Ht).
    change (EmptyString +:+ t) with t.
    rewrite (split_go_space t _ Hne). by rewrite IH.
Qed.

(** X6.  A command made by joining arguments with single spaces, each argument
    non-empty and free of white space, reaches the runtime as exactly those
    arguments. *)
Theorem joined_arguments_reach_runtime w image args b cb :
  path_exists w image = true ->
  truthy b = true ->
  Forall token args ->
  execute_calls
    (run_singularity_command w image (String.concat " " args) b cb).1 =
    [(as_posix (path_resolve w image), args, Some (bind_list w b))].
Proof.
  intros He Hb Hargs. rewrite run_execute_calls, He, Hb. simpl.
  by rewrite (split_concat args Hargs).
Qed.

Lemma joined_arguments_reach_runtime_witness :
  path_exists Demo.world Demo.test_sif = true
  /\ truthy (BindPath Demo.data) = true
  /\ Forall token ["ls"; "-l"; "'a"; "b'"]
  /\ execute_calls
       (run_singularity_command Demo.world Demo.test_sif
          (String.concat " " ["ls"; "-l"; "'a"; "b'"])
          (BindPath Demo.data) None).1 =
     [(as_posix (path_resolve Demo.world Demo.test_sif),
       ["ls"; "-l"; "'a"; "b'"],
       Some (bind_list Demo.world (BindPath Demo.data)))].
Proof.
  assert (Hargs : Forall token ["ls"; "-l"; "'a"; "b'"]).
  { repeat constructor. }
  split; [reflexivity |]. split; [reflexivity |]. split; [exact Hargs |].
  apply (joined_arguments_reach_runtime Demo.world Demo.test_sif
           ["ls"; "-l"; "'a"; "b'"] (BindPath Demo.data) None);
    [reflexivity | reflexivity | exact Hargs].
Defined.

(** ** Facts about [FieldSummary] *)

Module SummaryFacts.
Import Summary.

Lemma dom_asdict fs : dom (_asdict fs) = list_to_set fields.
Proof. reflexivity. Qed.

(** Building a summary from its own dictionary gives it back. *)
Lemma new_asdict fs : new (_asdict fs) = Return fs.
Proof. destruct fs. vm_compute. reflexivity. Qed.

Lemma asdict_inj fs1 fs2 : _asdict fs1 = _asdict fs2 -> fs1 = fs2.
Proof.
  intros Heq. pose proof (new_asdict fs1) as H1.
  rewrite Heq, new_asdict in H1. congruence.
Qed.

Lemma elem_of_fields (i : string) :
  i ∈ (list_to_set fields : gset string) <-> i ∈ fields.
Proof. apply elem_of_list_to_set. Qed.

(** In a dictionary whose keys are the field names, a field is present. *)
Ltac present prop Hdom name :=
  let v := fresh "v" in
  let H := fresh "H" in
  destruct (prop !! name) as [v|] eqn:H;
  [| exfalso; apply not_elem_of_dom in H; apply H; rewrite Hdom;
     apply elem_of_fields; unfold fields;
     rewrite !elem_of_cons; tauto].

(** One step of a lookup in the dictionary of a summary. *)
Ltac lookup_step i name :=
  destruct (decide (i = name)) as [->|];
  [rewrite lookup_insert_eq; congruence | rewrite lookup_insert_ne by done].

(** The constructor accepts every dictionary whose keys are exactly the
    field names, and the summary it builds has that dictionary. *)
Lemma new_exact prop :
  dom prop = list_to_set fields ->
  exists fs, new prop = Return fs /\ _asdict fs = prop.
Proof.
  intros Hdom. unfold new, keyword.
  rewrite bool_decide_eq_true_2 by by rewrite Hdom.
  present prop Hdom "sbid". present prop Hdom "cal_sbid".
  present prop Hdom "field_name". present prop Hdom "ms_summaries".
  present prop Hdom "centre". present prop Hdom "integration_time".
  present prop Hdom "no_components". present prop Hdom "holography_path".
  present prop Hdom "round". present prop Hdom "location".
  present prop Hdom "ms_times". present prop Hdom "hour_angles".
  present prop Hdom "elevations". present prop Hdom "median_rms".
  eexists. split; [reflexivity |].
  apply map_eq. intros i. unfold _asdict, list_to_map.
  cbn [foldr fst snd from_option id sbid cal_sbid field_name ms_summaries
       centre integration_time no_components holography_path round location
       ms_times hour_angles elevations median_rms].
  lookup_step i "sbid". lookup_step i "cal_sbid".
  lookup_step i "field_name". lookup_step i "ms_summaries".
  lookup_step i "centre". lookup_step i "integration_time".
  lookup_step i "no_components". lookup_step i "holography_path".
  lookup_step i "round". lookup_step i "location".
  lookup_step i "ms_times". lookup_step i "hour_angles".
  lookup_step i "elevations". lookup_step i "median_rms".
  rewrite lookup_empty. symmetry. apply not_elem_of_dom. rewrite Hdom.
  rewrite elem_of_fields. unfold fields.
  rewrite !elem_of_cons, elem_of_nil. tauto.
Qed.

Lemma dom_updated fs (kwargs : gmap string Val) :
  dom kwargs ⊆ list_to_set fields ->
  dom (kwargs ∪ _asdict fs) = list_to_set fields.
Proof.
  intros Hk. rewrite dom_union_L, dom_asdict.
  by apply subseteq_union_1_L.
Qed.

Lemma with_options_valid fs (kwargs : gmap string Val) :
  dom kwargs ⊆ list_to_set fields ->
  exists fs',
    with_options fs kwargs = ([], Return fs')
    /\ _asdict fs' = kwargs ∪ _asdict fs.
Proof.
  intros Hk. destruct (new_exact _ (dom_updated fs kwargs Hk))
    as (fs' & Hnew & Hdict).
  exists fs'. split; [| done]. unfold with_options, quiet. by rewrite Hnew.
Qed.

Lemma with_options_invalid fs (kwargs : gmap string Val) :
  ~ dom kwargs ⊆ list_to_set fields ->
  with_options fs kwargs = ([], Raise (PyError "TypeError")).
Proof.
  intros Hk. unfold with_options, quiet, new.
  rewrite bool_decide_eq_false_2; [done |].
  intros Hsub. apply Hk. rewrite dom_union_L in Hsub.
  etrans; [apply union_subseteq_l | exact Hsub].
Qed.

Lemma with_options_unknown fs (kwargs : gmap string Val) name v :
  kwargs !! name = Some v ->
  name ∉ fields ->
  with_options fs kwargs = ([], Raise (PyError "TypeError")).
Proof.
  intros Hv Hname. apply with_options_invalid. intros Hsub.
  apply Hname, elem_of_fields, Hsub, elem_of_dom. by exists v.
Qed.

(** A call to [with_options] that returns was given field names only. *)
Lemma with_options_returned fs (kwargs : gmap string Val) fs' :
  with_options fs kwargs = ([], Return fs') ->
  dom kwargs ⊆ list_to_set fields /\ _asdict fs' = kwargs ∪ _asdict fs.
Proof.
  intros Hret.
  destruct (decide (dom kwargs ⊆ (list_to_set fields : gset string)))
    as [Hk|Hk].
  - split; [done |].
    destruct (with_options_valid fs kwargs Hk) as (fs2 & Hw & Hdict).
    rewrite Hw in Hret. congruence.
  - rewrite (with_options_invalid fs kwargs Hk) in Hret. discriminate.
Qed.

End SummaryFacts.

(** ** The properties of the summary functions *)

Module SummaryTheorems.
Import Summary SummaryFacts.

(** X7.  [with_options] given field names only returns a summary in which each
    named field has the value given and every other field is as before. *)
Theorem with_options_replaces_named fs (kwargs : gmap string Val) :
  dom kwargs ⊆ list_to_set fields ->
  exists fs',
    with_options fs kwargs = ([], Return fs')
    /\ _asdict fs' = kwargs ∪ _asdict fs
    /\ (forall name v,
          kwargs !! name = Some v -> _asdict fs' !! name = Some v)
    /\ (forall name,
          kwargs !! name = None -> _asdict fs' !! name = _asdict fs !! name).
Proof.
  intros Hk. destruct (with_options_valid fs kwargs Hk) as (fs' & Hw & Hd).
  exists fs'. split; [done |]. split; [done |]. rewrite Hd. split.
  - intros name v Hv. by apply lookup_union_Some_l.
  - intros name Hn. by apply lookup_union_r.
Qed.

Lemma with_options_replaces_named_witness :
  dom ({[ "round" := VInt 2 ]} : gmap string Val) ⊆ list_to_set fields
  /\ exists fs',
       with_options SummaryDemo.summary0 {[ "round" := VInt 2 ]} =
         ([], Return fs')
       /\ _asdict fs' = {[ "round" := VInt 2 ]} ∪ _asdict SummaryDemo.summary0
       /\ (forall name v,
             ({[ "round" := VInt 2 ]} : gmap string Val) !! name = Some v ->
             _asdict fs' !! name = Some v)
       /\ (forall name,
             ({[ "round" := VInt 2 ]} : gmap string Val) !! name = None ->
             _asdict fs' !! name = _asdict SummaryDemo.summary0 !! name).
Proof.
  assert (Hk : dom ({[ "round" := VInt 2 ]} : gmap string Val)
               ⊆ list_to_set fields).
  { rewrite dom_singleton_L. apply singleton_subseteq_l, elem_of_fields.
    unfold fields. rewrite !elem_of_cons. tauto. }
  split; [exact Hk |].
  apply (with_options_replaces_named SummaryDemo.summary0
           {[ "round" := VInt 2 ]} Hk).
Defined.

(** X8.  A keyword that is not the name of a field makes [with_options] raise
    [TypeError]. *)
Theorem with_options_rejects_unknown fs (kwargs : gmap string Val) name v :
  kwargs !! name = Some v ->
  name ∉ fields ->
  with_options fs kwargs = ([], Raise (PyError "TypeError")).
Proof. apply with_options_unknown. Qed.

Lemma with_options_rejects_unknown_witness :
  ({[ "rond" := VInt 2 ]} : gmap string Val) !! "rond" = Some (VInt 2)
  /\ ("rond" ∉ fields)
  /\ with_options SummaryDemo.summary0 {[ "rond" := VInt 2 ]} =
       ([], Raise (PyError "TypeError")).
Proof.
  assert (Hname : "rond" ∉ fields).
  { unfold fields. rewrite !elem_of_cons, elem_of_nil.
    intros H. repeat (destruct H as [H|H]; [discriminate H |]). exact H. }
  split; [reflexivity |]. split; [exact Hname |].
  apply (with_options_rejects_unknown SummaryDemo.summary0
           {[ "rond" := VInt 2 ]} "rond" (VInt 2));
    [reflexivity | exact Hname].
Defined.

(** X9.  [with_options] without keywords returns the summary it was called on. *)
Theorem with_options_nothing fs :
  with_options fs ∅ = ([], Return fs).
Proof.
  unfold with_options, quiet.
  rewrite (left_id_L (∅ : gmap string Val) (∪)). by rewrite new_asdict.
Qed.

(** X10.  Two calls to [with_options] in a row are one call with both sets of
    keywords, the later ones winning. *)
Theorem with_options_twice fs (k1 k2 : gmap string Val) fs1 :
  with_options fs k1 = ([], Return fs1) ->
  with_options fs1 k2 = with_options fs (k2 ∪ k1).
Proof.
  intros Hw. apply with_options_returned in Hw as [_ Hd].
  unfold with_options. rewrite Hd.
  by rewrite (assoc_L (∪) k2 k1 (_asdict fs)).
Qed.

Lemma with_options_twice_witness :
  exists fs1,
    with_options SummaryDemo.summary0 {[ "round" := VInt 1 ]} =
      ([], Return fs1)
    /\ with_options fs1 {[ "round" := VInt 2 ]} =
       with_options SummaryDemo.summary0
         ({[ "round" := VInt 2 ]} ∪ {[ "round" := VInt 1 ]}).
Proof.
  eexists. split; [vm_compute; reflexivity |].
  apply (with_options_twice SummaryDemo.summary0
           {[ "round" := VInt 1 ]} {[ "round" := VInt 2 ]}).
  vm_compute. reflexivity.
Defined.

Section WithOracles.

Variable a : Astro.

Lemma map_describe_ms_ok mss ss :
  described a mss ss -> map_describe_ms a mss = ([], Return ss).
Proof.
  induction 1 as [|ms s mss ss Hms _ IH]; [done |].
  simpl. unfold quiet. by rewrite Hms, IH.
Qed.

Lemma map_describe_ms_fail l1 ss ms l2 e :
  described a l1 ss -> describe_ms a ms = Raise e ->
  map_describe_ms a (l1 ++ ms :: l2) = ([], Raise e).
Proof.
  intros Hl1 Hms. induction Hl1 as [|m s l1 ss Hm _ IH]; simpl.
  - unfold quiet. by rewrite Hms.
  - unfold quiet in *. by rewrite Hm, IH.
Qed.

Lemma map_describe_ms_quiet mss : (map_describe_ms a mss).1 = [].
Proof.
  induction mss as [|ms mss IH]; [done |].
  simpl. unfold quiet. destruct (describe_ms a ms); [| done].
  simpl. destruct (map_describe_ms a mss) as [t [ss|e]]; simpl in *;
    by subst.
Qed.

Lemma bind_quiet_return {A B} (x : A) (f : A -> M B) :
  bind ([], Return x) f = f x.
Proof. unfold bind. by destruct (f x). Qed.

Lemma bind_ret_l {A B} (x : A) (f : A -> M B) : bind (ret x) f = f x.
Proof. apply bind_quiet_return. Qed.

Lemma bind_logger_info {A} msg (f : unit -> M A) o :
  f tt = ([], o) -> bind (logger_info msg) f = ([EvLog INFO msg], o).
Proof. intros Hf. unfold bind, logger_info, emit. by rewrite Hf. Qed.

Lemma fields_only (k : gmap string Val) :
  bool_decide (dom k ⊆ list_to_set fields) = true ->
  dom k ⊆ list_to_set fields.
Proof. apply bool_decide_eq_true_1. Qed.

Lemma add_ms_summaries_ok fs mss ss :
  described a mss ss ->
  exists fs',
    add_ms_summaries a fs mss = ([], Return fs')
    /\ _asdict fs' = <[ "ms_summaries" := VTuple ss ]> (_asdict fs).
Proof.
  intros Hd. unfold add_ms_summaries.
  rewrite (map_describe_ms_ok mss ss Hd), bind_quiet_return.
  destruct (with_options_valid fs {[ "ms_summaries" := VTuple ss ]})
    as (fs' & Hw & Hdict).
  { by apply fields_only. }
  exists fs'. split; [done |].
  by rewrite Hdict, <- insert_union_singleton_l.
Qed.

(** X11.  [add_ms_summaries] returns the summary (not the tuple its annotation
    names) with [ms_summaries] set to the descriptions of the measurement
    sets, in order; the other fields are untouched. *)
Theorem add_ms_summaries_sets_tuple fs mss ss :
  described a mss ss ->
  exists fs',
    add_ms_summaries a fs mss = ([], Return fs')
    /\ _asdict fs' = <[ "ms_summaries" := VTuple ss ]> (_asdict fs).
Proof. apply add_ms_summaries_ok. Qed.

(** X12.  The first measurement set that [describe_ms] fails on ends
    [add_ms_summaries] with that exception. *)
Theorem add_ms_summaries_first_failure fs l1 ss ms l2 e :
  described a l1 ss ->
  describe_ms a ms = Raise e ->
  add_ms_summaries a fs (l1 ++ ms :: l2) = ([], Raise e).
Proof.
  intros Hd He. unfold add_ms_summaries.
  by rewrite (map_describe_ms_fail l1 ss ms l2 e Hd He).
Qed.

(** X13.  [add_rms_information] sets [centre], [hour_angles], [elevations] and
    [no_components] and leaves the other ten fields as they are.  The
    horizontal frame is built from the summary's own [ms_times] and
    [location]; [hour_angles] is the azimuth of the centre in that frame and
    [elevations] its altitude. *)
Theorem add_rms_information_sets_four fs ao c aa h el n :
  estimate_image_centre a (rms ao) = Return c ->
  transform_to_altaz a c (ms_times fs) (location fs) = Return aa ->
  az_to_hourangle a aa = Return h ->
  alt_to_deg a aa = Return el ->
  table_length a (comp ao) = Return n ->
  exists fs',
    add_rms_information a fs ao = ([], Return fs')
    /\ _asdict fs' =
       <[ "centre" := c ]>
         (<[ "hour_angles" := h ]>
            (<[ "elevations" := el ]>
               (<[ "no_components" := n ]> (_asdict fs)))).
Proof.
  intros Hc Haa Hh Hel Hn. unfold add_rms_information, quiet.
  rewrite Hc, bind_quiet_return, Haa, bind_quiet_return.
  rewrite Hh, bind_quiet_return, Hel, bind_quiet_return.
  rewrite Hn, bind_quiet_return.
  match goal with
  | |- context [with_options fs ?k] =>
      destruct (with_options_valid fs k) as (fs' & Hw & Hdict)
  end.
  { by apply fields_only. }
  exists fs'. split; [done |].
  by rewrite Hdict, <- !insert_union_l, <- insert_union_singleton_l.
Qed.

Lemma add_ms_summaries_quiet fs mss : (add_ms_summaries a fs mss).1 = [].
Proof.
  unfold add_ms_summaries. pose proof (map_describe_ms_quiet mss) as Hq.
  destruct (map_describe_ms a mss) as [t [ss|e]]; simpl in *; subst;
    [| done].
  unfold with_options, quiet.
  first [done | match goal with |- context [new ?p] => by destruct (new p) end].
Qed.

Lemma add_rms_information_quiet fs ao : (add_rms_information a fs ao).1 = [].
Proof.
  unfold add_rms_information, quiet.
  destruct (estimate_image_centre a (rms ao)) as [c|]; [| done].
  rewrite bind_quiet_return.
  destruct (transform_to_altaz a c _ _) as [aa|]; [| done].
  rewrite bind_quiet_return.
  destruct (az_to_hourangle a aa) as [h|]; [| done].
  rewrite bind_quiet_return.
  destruct (alt_to_deg a aa) as [el|]; [| done].
  rewrite bind_quiet_return.
  destruct (table_length a (comp ao)) as [n|]; [| done].
  rewrite bind_quiet_return.
  unfold with_options, quiet.
  first [done | match goal with |- context [new ?p] => by destruct (new p) end].
Qed.

(** X14.  With no source-finding products and no measurement sets ([None] or an
    empty collection), [update_field_summary] is [with_options] followed by
    one info message; an empty collection does not reset [ms_summaries]. *)
Theorem update_is_with_options fs mss (kwargs : gmap string Val) :
  mss = None \/ mss = Some [] ->
  dom kwargs ⊆ list_to_set fields ->
  exists fs',
    update_field_summary a fs None mss kwargs =
      ([EvLog INFO ("Updated field_summary=" +:+ repr_summary a fs')],
       Return fs')
    /\ _asdict fs' = kwargs ∪ _asdict fs.
Proof.
  intros Hmss Hk.
  destruct (with_options_valid fs kwargs Hk) as (fs' & Hw & Hdict).
  exists fs'. split; [| done].
  unfold update_field_summary.
  destruct Hmss as [-> | ->];
    rewrite !bind_ret_l, Hw, bind_quiet_return; done.
Qed.

(** X15.  The keywords are applied last: with measurement sets given,
    [ms_summaries] is first set to their descriptions, and then every field
    named by a keyword, [ms_summaries] included, takes the keyword's
    value. *)
Theorem update_keywords_override fs aegean fs1 ms rest ss
    (kwargs : gmap string Val) :
  match aegean with
  | Some ao => add_rms_information a fs ao = ([], Return fs1)
  | None => fs1 = fs
  end ->
  described a (ms :: rest) ss ->
  dom kwargs ⊆ list_to_set fields ->
  exists fs',
    update_field_summary a fs aegean (Some (ms :: rest)) kwargs =
      ([EvLog INFO ("Updated field_summary=" +:+ repr_summary a fs')],
       Return fs')
    /\ _asdict fs' =
       kwargs ∪ <[ "ms_summaries" := VTuple ss ]> (_asdict fs1).
Proof.
  intros Hrms Hd Hk.
  destruct (add_ms_summaries_ok fs1 (ms :: rest) ss Hd)
    as (fs2 & Hadd & Hdict2).
  destruct (with_options_valid fs2 kwargs Hk) as (fs' & Hw & Hdict).
  exists fs'. split; [| by rewrite Hdict, Hdict2].
  unfold update_field_summary.
  assert (Hfirst :
    match aegean with
    | Some ao => add_rms_information a fs ao
    | None => ret fs
    end = ([], Return fs1)).
  { destruct aegean; [done | by subst]. }
  rewrite Hfirst, bind_quiet_return, Hadd, bind_quiet_return, Hw.
  done.
Qed.

(** X16.  A keyword that is not a field name makes [update_field_summary] fail,
    whatever else it was given: it ends in an exception and the "Updated"
    message is never logged. *)
Theorem update_rejects_unknown_keyword fs aegean mss
    (kwargs : gmap string Val) name v :
  kwargs !! name = Some v ->
  name ∉ fields ->
  (update_field_summary a fs aegean mss kwargs).1 = []
  /\ exists e, (update_field_summary a fs aegean mss kwargs).2 = Raise e.
Proof.
  intros Hv Hname. unfold update_field_summary.
  assert (H1 : exists o,
    match aegean with
    | Some ao => add_rms_information a fs ao
    | None => ret fs
    end = ([], o)).
  { destruct aegean as [ao|]; [| by eexists].
    pose proof (add_rms_information_quiet fs ao) as Hq.
    destruct (add_rms_information a fs ao) as [t o]. simpl in Hq.
    subst. by eexists. }
  destruct H1 as [[fs1|e1] ->]; [| by eauto].
  rewrite bind_quiet_return.
  assert (H2 : exists o,
    match mss with
    | Some (ms :: rest) => add_ms_summaries a fs1 (ms :: rest)
    | _ => ret fs1
    end = ([], o)).
  { destruct mss as [[|ms rest]|]; try by eexists.
    pose proof (add_ms_summaries_quiet fs1 (ms :: rest)) as Hq.
    destruct (add_ms_summaries a fs1 (ms :: rest)) as [t o]. simpl in Hq.
    subst. by eexists. }
  destruct H2 as [[fs2|e2] ->]; [| by eauto].
  rewrite bind_quiet_return.
  rewrite (with_options_unknown fs2 kwargs name v Hv Hname).
  by eauto.
Qed.

(** X17.  When the name of the measurement set yields no field name,
    [create_field_summary] raises [AssertionError] right after its first
    message, whatever the other arguments are. *)
Theorem create_asserts_field ms ms' nc cal hol aegean mss :
  ms_cast a ms = Return ms' ->
  processed_ms_format a (ms_path a ms') = Return nc ->
  name_field nc = None ->
  create_field_summary a ms cal hol aegean mss =
    ([EvLog INFO "Creating field summary object"],
     Raise (PyError "AssertionError")).
Proof.
  intros Hcast Hnc Hfield. unfold create_field_summary, quiet.
  by rewrite Hcast, bind_quiet_return, Hnc, bind_quiet_return, Hfield.
Qed.

(** X18.  Created from a measurement set alone (no calibrator path, no
    source-finding products, no measurement sets to describe), the summary
    holds the SBID as a string, the field name, the location, the
    integration time, the first and last time stamps and the holography
    path; [cal_sbid] and every other field are [None]. *)
Theorem create_from_ms_alone ms ms' nc f t dt loc tr hol mss :
  ms_cast a ms = Return ms' ->
  processed_ms_format a (ms_path a ms') = Return nc ->
  name_field nc = Some f ->
  get_times_from_ms a ms' = Return t ->
  ptp_seconds a t = Return dt ->
  get_telescope_location_from_ms a ms' = Return loc ->
  time_min_max a t = Return tr ->
  mss = None \/ mss = Some [] ->
  create_field_summary a ms None hol None mss =
    ([EvLog INFO "Creating field summary object"],
     Return {|
       sbid := VStr (str a (name_sbid nc));
       cal_sbid := VNone;
       field_name := VStr f;
       ms_summaries := VNone;
       centre := VNone;
       integration_time := dt;
       no_components := VNone;
       holography_path := from_option VPath VNone hol;
       round := VNone;
       location := loc;
       ms_times := tr;
       hour_angles := VNone;
       elevations := VNone;
       median_rms := VNone
     |}).
Proof.
  intros Hcast Hnc Hfield Ht Hdt Hloc Htr Hmss.
  unfold create_field_summary, quiet.
  rewrite Hcast, bind_quiet_return, Hnc, bind_quiet_return, Hfield.
  apply bind_logger_info.
  rewrite (bool_decide_eq_true_2 (Some f <> None)) by done.
  unfold assert_. rewrite !bind_ret_l.
  rewrite Ht, bind_quiet_return, Hdt, bind_quiet_return.
  rewrite Hloc, bind_quiet_return, Htr, bind_quiet_return.
  by destruct Hmss as [-> | ->]; rewrite !bind_ret_l.
Qed.

End WithOracles.

Lemma add_ms_summaries_sets_tuple_witness :
  described SummaryDemo.astro [VObj 1; VObj 2] [VObj 101; VObj 102]
  /\ exists fs',
       add_ms_summaries SummaryDemo.astro SummaryDemo.summary0
         [VObj 1; VObj 2] = ([], Return fs')
       /\ _asdict fs' =
          <[ "ms_summaries" := VTuple [VObj 101; VObj 102] ]>
            (_asdict SummaryDemo.summary0).
Proof.
  assert (Hd : described SummaryDemo.astro
                 [VObj 1; VObj 2] [VObj 101; VObj 102]).
  { repeat constructor. }
  split; [exact Hd |].
  apply (add_ms_summaries_sets_tuple SummaryDemo.astro SummaryDemo.summary0
           [VObj 1; VObj 2] [VObj 101; VObj 102] Hd).
Defined.

Lemma add_ms_summaries_first_failure_witness :
  described SummaryDemo.astro [VObj 1] [VObj 101]
  /\ describe_ms SummaryDemo.astro VNone = Raise (PyError "AttributeError")
  /\ add_ms_summaries SummaryDemo.astro SummaryDemo.summary0
       ([VObj 1] ++ VNone :: [VObj 2]) =
     ([], Raise (PyError "AttributeError")).
Proof.
  assert (Hd : described SummaryDemo.astro [VObj 1] [VObj 101]).
  { repeat constructor. }
  split; [exact Hd |]. split; [reflexivity |].
  apply (add_ms_summaries_first_failure SummaryDemo.astro
           SummaryDemo.summary0 [VObj 1] [VObj 101] VNone [VObj 2]
           (PyError "AttributeError") Hd).
  reflexivity.
Defined.

Lemma add_rms_information_sets_four_witness :
  exists fs',
    add_rms_information SummaryDemo.astro SummaryDemo.summary0
      SummaryDemo.aegean0 = ([], Return fs')
    /\ _asdict fs' =
       <[ "centre" := VObj 20 ]>
         (<[ "hour_angles" := VObj 22 ]>
            (<[ "elevations" := VObj 23 ]>
               (<[ "no_components" := VInt 42 ]>
                  (_asdict SummaryDemo.summary0)))).
Proof.
  apply (add_rms_information_sets_four SummaryDemo.astro
           SummaryDemo.summary0 SummaryDemo.aegean0
           (VObj 20) (VObj 21) (VObj 22) (VObj 23) (VInt 42));
    reflexivity.
Defined.

Lemma update_is_with_options_witness :
  (Some ([] : list Val) = None \/ Some ([] : list Val) = Some [])
  /\ exists fs',
       update_field_summary SummaryDemo.astro SummaryDemo.summary0 None
         (Some []) {[ "round" := VInt 2 ]} =
         ([EvLog INFO
             ("Updated field_summary="
              +:+ repr_summary SummaryDemo.astro fs')],
          Return fs')
       /\ _asdict fs' =
          {[ "round" := VInt 2 ]} ∪ _asdict SummaryDemo.summary0.
Proof.
  split; [by right |].
  apply (update_is_with_options SummaryDemo.astro SummaryDemo.summary0
           (Some []) {[ "round" := VInt 2 ]});
    [by right | by apply fields_only].
Defined.

Lemma update_keywords_override_witness :
  described SummaryDemo.astro [VObj 1] [VObj 101]
  /\ exists fs',
       update_field_summary SummaryDemo.astro SummaryDemo.summary0 None
         (Some [VObj 1]) {[ "ms_summaries" := VNone ]} =
         ([EvLog INFO
             ("Updated field_summary="
              +:+ repr_summary SummaryDemo.astro fs')],
          Return fs')
       /\ _asdict fs' =
          {[ "ms_summaries" := VNone ]}
          ∪ <[ "ms_summaries" := VTuple [VObj 101] ]>
              (_asdict SummaryDemo.summary0).
Proof.
  assert (Hd : described SummaryDemo.astro [VObj 1] [VObj 101]).
  { repeat constructor. }
  split; [exact Hd |].
  apply (update_keywords_override SummaryDemo.astro SummaryDemo.summary0
           None SummaryDemo.summary0 (VObj 1) [] [VObj 101]
           {[ "ms_summaries" := VNone ]});
    [reflexivity | exact Hd | by apply fields_only].
Defined.

Lemma update_rejects_unknown_keyword_witness :
  ({[ "rond" := VInt 2 ]} : gmap string Val) !! "rond" = Some (VInt 2)
  /\ (update_field_summary SummaryDemo.astro SummaryDemo.summary0
        (Some SummaryDemo.aegean0) (Some [VObj 1])
        {[ "rond" := VInt 2 ]}).1 = []
  /\ exists e,
       (update_field_summary SummaryDemo.astro SummaryDemo.summary0
          (Some SummaryDemo.aegean0) (Some [VObj 1])
          {[ "rond" := VInt 2 ]}).2 = Raise e.
Proof.
  split; [reflexivity |].
  apply (update_rejects_unknown_keyword SummaryDemo.astro
           SummaryDemo.summary0 (Some SummaryDemo.aegean0) (Some [VObj 1])
           {[ "rond" := VInt 2 ]} "rond" (VInt 2)); [reflexivity |].
  unfold fields. rewrite !elem_of_cons, elem_of_nil.
  intros H. repeat (destruct H as [H|H]; [discriminate H |]). exact H.
Defined.

Lemma create_asserts_field_witness :
  name_field {| name_sbid := VInt 1234; name_field := None |} = None
  /\ create_field_summary SummaryDemo.nameless (VObj 1)
       (Some (MkPath "/obs/SB1200.cal.ms")) None
       (Some SummaryDemo.aegean0) (Some [VObj 1]) =
     ([EvLog INFO "Creating field summary object"],
      Raise (PyError "AssertionError")).
Proof.
  split; [reflexivity |].
  apply (create_asserts_field SummaryDemo.nameless (VObj 1) (VObj 1)
           {| name_sbid := VInt 1234; name_field := None |});
    reflexivity.
Defined.

Lemma create_from_ms_alone_witness :
  create_field_summary SummaryDemo.astro (VObj 1) None None None None =
    ([EvLog INFO "Creating field summary object"],
     Return {|
       sbid := VStr "1234";
       cal_sbid := VNone;
       field_name := VStr "RACS_0000-12";
       ms_summaries := VNone;
       centre := VNone;
       integration_time := VObj 11;
       no_components := VNone;
       holography_path := VNone;
       round := VNone;
       location := VObj 12;
       ms_times := VObj 13;
       hour_angles := VNone;
       elevations := VNone;
       median_rms := VNone
     |}).
Proof.
  apply (create_from_ms_alone SummaryDemo.astro (VObj 1) (VObj 1)
           {| name_sbid := VInt 1234; name_field := Some "RACS_0000-12" |}
           "RACS_0000-12" (VObj 10) (VObj 11) (VObj 12) (VObj 13)
           None None);
    try reflexivity.
  by left.
Defined.

End SummaryTheorems.
